(** * Tuxedo Control Center: keyboard zone mapping utility

    A shallow embedding of [keyboard_mapping_util.py] and the proofs of its
    documented properties.

    - Python [int] is unbounded: zone ids are [Z].
    - Python [str] is modelled as [string], the UTF-8 bytes of the text
      (the labels with umlauts are two bytes long here).
    - Formatting an [int] in an f-string can fail: CPython refuses, with
      [ValueError], to convert an int of more than 4300 decimal digits
      (the default of [sys.get_int_max_str_digits()]).
    - The dict [ZONE_TO_KEY] is an association list in insertion order, the
      order in which [dict.items()] iterates; it is built from the items of
      the dict literal by [dict_setitem], which overwrites a key that is
      already there.
    - The module global and the standard output are the two fields of the
      interpreter state; the three routines run in a monad that threads
      this state and stops at a raised exception, keeping the state
      reached. *)

From Stdlib Require Import ZArith List String Ascii Bool Lia Sorted.
From Stdlib Require Import DecimalString DecimalPos DecimalZ.
From ExtLib Require Import Structures.Monad.
Import ListNotations.
Import MonadNotation.

Local Open Scope string_scope.
Local Open Scope Z_scope.
Local Open Scope monad_scope.

(** ** Python built-ins used by the module *)

Module Py.

(** The one-character strings that a Rocq literal cannot hold directly. *)
Definition nl : string := String "010"%char EmptyString.
Definition dquote : string := String "034"%char EmptyString.

(** The exceptions the built-ins used here can raise. *)
Inductive exn : Type := ValueError.

(** The decimal digits of an [int], a leading minus sign for a negative
    number. *)
Definition decimal (n : Z) : string := NilZero.string_of_int (Z.to_int n).

(** [sys.get_int_max_str_digits()], CPython's default. *)
Definition int_max_str_digits : Z := 4300.

(** [10 ** 4300], the least magnitude with more digits than that. *)
Definition int_str_bound : Z := Eval vm_compute in 10 ^ int_max_str_digits.

(** [str(n)] and [f"{n}"] for an [int]: the decimal text, or [ValueError]
    when the number has more than [int_max_str_digits] digits. *)
Definition str (n : Z) : exn + string :=
  if int_str_bound <=? Z.abs n then inl ValueError else inr (decimal n).

(** [sys.maxsize]: no container holds more items. *)
Definition maxsize : Z := 2 ^ 63 - 1.

(** [sub in s] on strings. *)
Fixpoint contains (sub s : string) : bool :=
  String.prefix sub s ||
  match s with
  | EmptyString => false
  | String _ rest => contains sub rest
  end.

(** [sep.join(lines)]. *)
Definition join (sep : string) (lines : list string) : string :=
  String.concat sep lines.

(** [s.split(sep)] for a one-character separator: [cur] holds, reversed,
    the characters of the field being read. *)
Fixpoint split_from (sep : ascii) (cur : list ascii) (s : string) : list string :=
  match s with
  | EmptyString => [string_of_list_ascii (rev cur)]
  | String c rest =>
      if Ascii.eqb c sep
      then string_of_list_ascii (rev cur) :: split_from sep [] rest
      else split_from sep (c :: cur) rest
  end.

Definition split (sep : ascii) (s : string) : list string := split_from sep [] s.

(** [range(n)]. *)
Definition range (n : nat) : list Z := map Z.of_nat (seq 0 n).

(** *** dict, in insertion order *)

Definition dict : Type := list (Z * string).

Definition keys (d : dict) : list Z := map fst d.
Definition items (d : dict) : list (Z * string) := d.
Definition len (d : dict) : Z := Z.of_nat (List.length d).

(** [d[k] = v]: the value of an existing key is replaced where it stands,
    a new key goes to the end. *)
Fixpoint dict_setitem (d : dict) (k : Z) (v : string) : dict :=
  match d with
  | [] => [(k, v)]
  | (k', v') :: rest =>
      if k' =? k then (k', v) :: rest else (k', v') :: dict_setitem rest k v
  end.

(** A dict display [{k1: v1, k2: v2, ...}] inserts its items left to right. *)
Definition dict_of_items (its : list (Z * string)) : dict :=
  fold_left (fun d kv => dict_setitem d (fst kv) (snd kv)) its [].

Fixpoint lookup (d : dict) (k : Z) : option string :=
  match d with
  | [] => None
  | (k', v) :: rest => if k' =? k then Some v else lookup rest k
  end.

(** [d.get(k, default)]: never raises. *)
Definition get (d : dict) (k : Z) (default : string) : string :=
  match lookup d k with
  | Some v => v
  | None => default
  end.

End Py.

(** ** The module *)

(** The items of the dict literal, as written. *)
Definition ZONE_TO_KEY_items : list (Z * string) :=
  [ (0, "Left Ctrl");
    (1, "Unused/Unknown");
    (2, "Fn");
    (3, "Left Windows");
    (4, "Left Alt");
    (5, "Unused/Unknown");
    (6, "Unused/Unknown");
    (7, "Space");
    (8, "Unused/Unknown");
    (9, "Unused/Unknown");
    (10, "Right Alt");
    (11, "Unused/Unknown");
    (12, "Right Ctrl");
    (13, "Left Arrow");
    (14, "Up Arrow");
    (15, "Right Arrow");
    (16, "Numpad 0");
    (17, "Numpad ,");
    (18, "Down Arrow");
    (19, "Unused/Unknown");
    (20, "Unused/Unknown");
    (21, "Unused/Unknown");
    (22, "Left Shift");
    (23, "<");
    (24, "y");
    (25, "x");
    (26, "c");
    (27, "v");
    (28, "b");
    (29, "n");
    (30, "m");
    (31, ",");
    (32, ".");
    (33, "-");
    (34, "Unused/Unknown");
    (35, "Right Shift");
    (36, "Numpad 1");
    (37, "Numpad 2");
    (38, "Numpad 3");
    (39, "Numpad Enter");
    (40, "Unused/Unknown");
    (41, "Unused/Unknown");
    (42, "Caps Lock");
    (43, "Unused/Unknown");
    (44, "a");
    (45, "s");
    (46, "d");
    (47, "f");
    (48, "g");
    (49, "h");
    (50, "j");
    (51, "k");
    (52, "l");
    (53, "ö");
    (54, "ä");
    (55, "#");
    (56, "Unused/Unknown");
    (57, "Numpad 4");
    (58, "Numpad 5");
    (59, "Numpad 6");
    (60, "Unused/Unknown");
    (61, "Unused/Unknown");
    (62, "Unused/Unknown");
    (63, "Tab");
    (64, "Unused/Unknown");
    (65, "q");
    (66, "w");
    (67, "e");
    (68, "r");
    (69, "t");
    (70, "z");
    (71, "u");
    (72, "i");
    (73, "o");
    (74, "p");
    (75, "ü");
    (76, "+");
    (77, "Enter");
    (78, "Numpad 7");
    (79, "Numpad 8");
    (80, "Numpad 9");
    (81, "Numpad +");
    (82, "Unused/Unknown");
    (83, "Unused/Unknown");
    (84, "^");
    (85, "1");
    (86, "2");
    (87, "3");
    (88, "4");
    (89, "5");
    (90, "6");
    (91, "7");
    (92, "8");
    (93, "9");
    (94, "0");
    (95, "ß");
    (96, "'");
    (97, "Unused/Unknown");
    (98, "Backspace");
    (99, "Num Lock");
    (100, "Numpad /");
    (101, "Numpad *");
    (102, "Numpad -");
    (103, "Unused/Unknown");
    (104, "Unused/Unknown");
    (105, "Esc");
    (106, "F1");
    (107, "F2");
    (108, "F3");
    (109, "F4");
    (110, "F5");
    (111, "F6");
    (112, "F7");
    (113, "F8");
    (114, "F9");
    (115, "F10");
    (116, "F11");
    (117, "F12");
    (118, "Print Screen");
    (119, "Insert");
    (120, "Delete");
    (121, "Home");
    (122, "End");
    (123, "Page Up");
    (124, "Page Down");
    (125, "Unused/Unknown") ].

Definition ZONE_TO_KEY : Py.dict := Py.dict_of_items ZONE_TO_KEY_items.

(** The interpreter state: the binding of the module global and what has
    been written to standard output. *)
Record World : Type := mkWorld {
  g_ZONE_TO_KEY : Py.dict;
  stdout : string
}.

(** How a call ends: with a value, or with an exception that nothing in
    the module catches. *)
Inductive outcome (A : Type) : Type :=
| Returned (value : A)
| Raised (e : Py.exn).

Arguments Returned {A} value.
Arguments Raised {A} e.

(** Computations of the module: from a state, an outcome and the state
    reached. *)
Definition py (A : Type) : Type := World -> outcome A * World.

Definition run {A : Type} (call : py A) (w : World) : outcome A * World := call w.

(** Sequencing: what follows a raised exception is not run. *)
#[export] Instance Monad_py : Monad py := {|
  ret := fun A (value : A) (w : World) => (Returned value, w);
  bind := fun A B (call : py A) (rest : A -> py B) (w : World) =>
            match call w with
            | (Returned value, w') => rest value w'
            | (Raised e, w') => (Raised e, w')
            end
|}.

(** Reading the global [ZONE_TO_KEY]. *)
Definition load_ZONE_TO_KEY : py Py.dict :=
  fun w => (Returned (g_ZONE_TO_KEY w), w).

(** [{n}] in an f-string: the text of the int, or the exception of [str]. *)
Definition format (n : Z) : py string :=
  fun w => match Py.str n with
           | inr text => (Returned text, w)
           | inl e => (Raised e, w)
           end.

(** [print(s)]: the text and a newline go to standard output. *)
Definition print (s : string) : py unit :=
  fun w => (Returned tt, mkWorld (g_ZONE_TO_KEY w) (stdout w ++ s ++ Py.nl)).

(** [for x in xs: acc = body(x, acc)], the loop-carried variables in [acc]. *)
Fixpoint for_in {A S : Type} (xs : list A) (body : A -> S -> py S) (acc : S) : py S :=
  match xs with
  | [] => ret acc
  | x :: rest => acc' <- body x acc ;; for_in rest body acc'
  end.

(** [def get_key_label(zone_id)]: the global is loaded, then the
    arguments are evaluated, the f-string of the default included, then
    [get] is called. *)
Definition get_key_label (zone_id : Z) : py string :=
  d <- load_ZONE_TO_KEY ;;
  zone_text <- format zone_id ;;
  ret (Py.get d zone_id ("Zone " ++ zone_text)).

(** The two f-strings appended by the body of the generator's loop. *)
Definition advance_line : string := "  zoneId = currentZone++;".

Definition create_line (key_label : string) : string :=
  "  createKeyButton( zoneId, " ++ Py.dquote ++ key_label ++ Py.dquote ++ ", row, col );".

(** The loop of [generate_keyboard_layout_code]: the final [code_lines]. *)
Definition generate_code_lines : py (list string) :=
  for_in (Py.range 18)
    (fun zone code_lines =>
       key_label <- get_key_label zone ;;
       let code_lines := (code_lines ++ [advance_line])%list in
       let code_lines := (code_lines ++ [create_line key_label])%list in
       ret code_lines)
    [].

(** [def generate_keyboard_layout_code()]. *)
Definition generate_keyboard_layout_code : py string :=
  code_lines <- generate_code_lines ;;
  ret (Py.join Py.nl code_lines).

(** The generator expression of the last line of the report:
    [sum(1 for k, v in ZONE_TO_KEY.items() if 'Unused' in v)]. *)
Definition count_unused (d : Py.dict) : Z :=
  fold_left Z.add
    (map (fun _ => 1) (filter (fun kv => Py.contains "Unused" (snd kv)) (Py.items d)))
    0.

(** The body of the report's loop: [print(f"  Zone {zone}: {key}")]. *)
Definition print_entry (zone_key : Z * string) (_ : unit) : py unit :=
  zone_text <- format (fst zone_key) ;;
  print ("  Zone " ++ zone_text ++ ": " ++ snd zone_key).

(** The body of [if __name__ == "__main__":]. *)
Definition main : py unit :=
  print "Tuxedo Keyboard Zone Mappings (German QWERTZ Layout):" ;;
  print "Note: Y and Z positions are swapped compared to US QWERTY" ;;
  print "" ;;
  d <- load_ZONE_TO_KEY ;;
  for_in (Py.items d) print_entry tt ;;
  d <- load_ZONE_TO_KEY ;;
  total <- format (Py.len d) ;;
  print (Py.nl ++ "Total mapped zones: " ++ total) ;;
  d <- load_ZONE_TO_KEY ;;
  unused <- format (count_unused d) ;;
  print ("Unused zones: " ++ unused).

(** The state in which the module's functions are called: the global bound
    by the top-level assignment, nothing printed yet. *)
Definition module_world : World := mkWorld ZONE_TO_KEY "".

(** How a call made in the module's state ends. *)
Definition returns {A : Type} (call : py A) : outcome A := fst (run call module_world).

(** The label the lookup gives in a state for a zone whose number [str]
    accepts. *)
Definition label_in_state (w : World) (zone : Z) : string :=
  Py.get (g_ZONE_TO_KEY w) zone ("Zone " ++ Py.decimal zone).

(** A table the report can print: [str] accepts every key, and the table
    is no longer than a container can be. *)
Definition printable (d : Py.dict) : Prop :=
  Forall (fun zone_key => Z.abs (fst zone_key) < Py.int_str_bound) (Py.items d)
  /\ Py.len d <= Py.maxsize.

(** The number of entries whose label is exactly the sentinel: the count
    the documentation compares with the one the report prints. *)
Definition count_sentinel (d : Py.dict) : Z :=
  Z.of_nat (List.length (filter (fun kv => String.eqb (snd kv) "Unused/Unknown") (Py.items d))).

(** What standard output holds after the given lines were printed in turn. *)
Definition printed (lines : list string) : string :=
  fold_right (fun line out => line ++ Py.nl ++ out) "" lines.

(** The line the report prints for an entry. *)
Definition entry_line (zone_key : Z * string) : string :=
  "  Zone " ++ Py.decimal (fst zone_key) ++ ": " ++ snd zone_key.

(** The lines of the report for a given table. *)
Definition report_lines (d : Py.dict) : list string :=
  List.app
    [ "Tuxedo Keyboard Zone Mappings (German QWERTZ Layout):";
      "Note: Y and Z positions are swapped compared to US QWERTY";
      "" ]
    (List.app
       (map entry_line (Py.items d))
       [ "";
         "Total mapped zones: " ++ Py.decimal (Py.len d);
         "Unused zones: " ++ Py.decimal (count_unused d) ]).

(** The generated text as the reader of the output sees it, line by line:
    [generate_keyboard_layout_code().split('\n')]. *)
Definition generated_lines : list string :=
  match returns generate_keyboard_layout_code with
  | Returned code => Py.split "010"%char code
  | Raised _ => []
  end.

(** How often a character occurs in a text: [s.count(c)]. *)
Fixpoint count_char (c : ascii) (s : string) : nat :=
  match s with
  | EmptyString => 0%nat
  | String a rest => ((if Ascii.eqb a c then 1 else 0) + count_char c rest)%nat
  end.

(** Whether the texts of a list are pairwise different. *)
Fixpoint all_distinct (l : list string) : bool :=
  match l with
  | [] => true
  | x :: rest => negb (existsb (String.eqb x) rest) && all_distinct rest
  end.

(** The labels of the zones that carry a key: the table without its
    "Unused/Unknown" entries. *)
Definition assigned (d : Py.dict) : list (Z * string) :=
  filter (fun zone_key => negb (String.eqb (snd zone_key) "Unused/Unknown")) (Py.items d).

(** ** Facts about the built-ins *)

Section DictFacts.

Implicit Types (d : Py.dict) (k : Z) (v : string).

Lemma lookup_absent d k : ~ In k (Py.keys d) -> Py.lookup d k = None.
Proof.
  induction d as [|[k' v'] d IH]; simpl; intros Hk; [reflexivity|].
  destruct (Z.eqb_spec k' k) as [->|Hne].
  - exfalso. apply Hk. now left.
  - apply IH. intros Hin. apply Hk. now right.
Qed.

Lemma lookup_present d k v :
  NoDup (Py.keys d) -> In (k, v) d -> Py.lookup d k = Some v.
Proof.
  induction d as [|[k' v'] d IH]; simpl; intros Hnd Hin; [contradiction|].
  inversion Hnd as [|? ? Hfresh Hnd']; subst.
  destruct Hin as [Heq|Hin].
  - injection Heq as -> ->. now rewrite Z.eqb_refl.
  - destruct (Z.eqb_spec k' k) as [->|Hne].
    + exfalso. apply Hfresh. change k with (fst (k, v)). now apply in_map.
    + now apply IH.
Qed.

Lemma lookup_sound d k v : Py.lookup d k = Some v -> In (k, v) d.
Proof.
  induction d as [|[k' v'] d IH]; simpl; [discriminate|].
  destruct (Z.eqb_spec k' k) as [->|Hne]; intros H.
  - injection H as ->. now left.
  - right. now apply IH.
Qed.

Lemma get_absent d k default : ~ In k (Py.keys d) -> Py.get d k default = default.
Proof. intros H. unfold Py.get. now rewrite lookup_absent. Qed.

Lemma get_present d k v default :
  NoDup (Py.keys d) -> In (k, v) d -> Py.get d k default = v.
Proof. intros Hnd Hin. unfold Py.get. now rewrite (lookup_present d k v). Qed.

Lemma keys_setitem_in d k v k0 :
  In k0 (Py.keys (Py.dict_setitem d k v)) <-> k0 = k \/ In k0 (Py.keys d).
Proof.
  induction d as [|[k' v'] d IH]; simpl.
  - intuition congruence.
  - destruct (Z.eqb_spec k' k) as [->|Hne]; simpl; rewrite ?IH; intuition congruence.
Qed.

(** Assignment keeps the keys of a dict distinct. *)
Lemma setitem_NoDup d k v :
  NoDup (Py.keys d) -> NoDup (Py.keys (Py.dict_setitem d k v)).
Proof.
  induction d as [|[k' v'] d IH]; simpl; intros Hnd.
  - constructor; [intros []|constructor].
  - inversion Hnd as [|? ? Hfresh Hnd']; subst.
    destruct (Z.eqb_spec k' k) as [->|Hne]; simpl.
    + now constructor.
    + constructor; [|now apply IH].
      rewrite keys_setitem_in. intros [->|Hin]; [now apply Hne|now apply Hfresh].
Qed.

Lemma dict_of_items_NoDup its : NoDup (Py.keys (Py.dict_of_items its)).
Proof.
  unfold Py.dict_of_items.
  assert (H : forall d, NoDup (Py.keys d) ->
              NoDup (Py.keys (fold_left (fun d kv => Py.dict_setitem d (fst kv) (snd kv)) its d))).
  { induction its as [|[k v] its IH]; simpl; intros d Hd; [exact Hd|].
    apply IH. now apply setitem_NoDup. }
  apply H. constructor.
Qed.

End DictFacts.

Lemma in_range n z : In z (Py.range n) <-> 0 <= z < Z.of_nat n.
Proof.
  unfold Py.range. rewrite in_map_iff. split.
  - intros [i [<- Hi]]. apply in_seq in Hi. lia.
  - intros Hz. exists (Z.to_nat z). split; [lia|]. apply in_seq. lia.
Qed.

Lemma append_assoc (a b c : string) : (a ++ b) ++ c = a ++ b ++ c.
Proof. induction a as [|x a IH]; simpl; [reflexivity|now rewrite IH]. Qed.

Lemma append_empty_r (a : string) : a ++ "" = a.
Proof. induction a as [|x a IH]; simpl; [reflexivity|now rewrite IH]. Qed.

Lemma fold_left_extend {A B : Type} (f : A -> list B) (xs : list A) (acc : list B) :
  fold_left (fun a x => (a ++ f x)%list) xs acc = (acc ++ flat_map f xs)%list.
Proof.
  revert acc. induction xs as [|x xs IH]; simpl; intros acc.
  - now rewrite app_nil_r.
  - now rewrite IH, app_assoc.
Qed.

(** ** Facts about the table *)

(** No item of the literal overwrote an earlier one. *)
Lemma ZONE_TO_KEY_literal : ZONE_TO_KEY = ZONE_TO_KEY_items.
Proof. vm_compute. reflexivity. Qed.

Lemma ZONE_TO_KEY_keys : Py.keys ZONE_TO_KEY = Py.range 126.
Proof. vm_compute. reflexivity. Qed.

Lemma ZONE_TO_KEY_NoDup : NoDup (Py.keys ZONE_TO_KEY).
Proof. apply dict_of_items_NoDup. Qed.

(** ** Texts of integers *)

Lemma int_str_bound_value : Py.int_str_bound = 10 ^ Py.int_max_str_digits.
Proof. vm_compute. reflexivity. Qed.

Lemma maxsize_below_bound : Py.maxsize < Py.int_str_bound.
Proof. vm_compute. reflexivity. Qed.

Lemma str_fits (n : Z) :
  Z.abs n < Py.int_str_bound -> Py.str n = inr (Py.decimal n).
Proof.
  intros Hn. unfold Py.str.
  destruct (Z.leb_spec Py.int_str_bound (Z.abs n)); [lia|reflexivity].
Qed.

Lemma str_too_long (n : Z) :
  Py.int_str_bound <= Z.abs n -> Py.str n = inl Py.ValueError.
Proof.
  intros Hn. unfold Py.str.
  destruct (Z.leb_spec Py.int_str_bound (Z.abs n)); [reflexivity|lia].
Qed.

(** A size fits: no container is long enough for [str] to refuse its
    length. *)
Lemma str_of_size (n : Z) :
  0 <= n <= Py.maxsize -> Py.str n = inr (Py.decimal n).
Proof.
  intros Hn. apply str_fits. pose proof maxsize_below_bound. lia.
Qed.

Lemma str_in_range (n : nat) (z : Z) :
  Z.of_nat n <= Py.maxsize -> In z (Py.range n) -> Py.str z = inr (Py.decimal z).
Proof.
  intros Hn Hz. apply in_range in Hz. apply str_of_size. lia.
Qed.

(** ** Running the routines *)

Section Runs.

Variable w : World.

Lemma bind_returned {A B : Type} (call : py A) (rest : A -> py B) (value : A) (w' : World) :
  run call w = (Returned value, w') -> run (bind call rest) w = run (rest value) w'.
Proof. unfold run. simpl. now intros ->. Qed.

Lemma bind_raised {A B : Type} (call : py A) (rest : A -> py B) (e : Py.exn) (w' : World) :
  run call w = (Raised e, w') -> run (bind call rest) w = (Raised e, w').
Proof. unfold run. simpl. now intros ->. Qed.

Lemma format_run (n : Z) :
  run (format n) w
  = match Py.str n with
    | inr text => (Returned text, w)
    | inl e => (Raised e, w)
    end.
Proof. reflexivity. Qed.

Lemma get_key_label_run zone_id :
  run (get_key_label zone_id) w
  = match Py.str zone_id with
    | inr zone_text => (Returned (Py.get (g_ZONE_TO_KEY w) zone_id ("Zone " ++ zone_text)), w)
    | inl e => (Raised e, w)
    end.
Proof. unfold run, get_key_label, format. simpl. now destruct (Py.str zone_id). Qed.

Lemma get_key_label_fits zone_id :
  Z.abs zone_id < Py.int_str_bound ->
  run (get_key_label zone_id) w
  = (Returned (Py.get (g_ZONE_TO_KEY w) zone_id ("Zone " ++ Py.decimal zone_id)), w).
Proof. intros H. now rewrite get_key_label_run, str_fits. Qed.

Lemma get_key_label_too_long zone_id :
  Py.int_str_bound <= Z.abs zone_id ->
  run (get_key_label zone_id) w = (Raised Py.ValueError, w).
Proof. intros H. now rewrite get_key_label_run, str_too_long. Qed.

(** A loop whose body returns and leaves the state alone is a fold over
    the list. *)
Lemma for_in_pure {A S : Type} (body : A -> S -> py S) (f : A -> S -> S) xs :
  (forall x acc, In x xs -> run (body x acc) w = (Returned (f x acc), w)) ->
  forall acc,
    run (for_in xs body acc) w = (Returned (fold_left (fun a x => f x a) xs acc), w).
Proof.
  induction xs as [|x xs IH]; intros Hbody acc; [reflexivity|].
  cbn [for_in fold_left].
  rewrite (bind_returned _ _ _ _ (Hbody x acc (or_introl eq_refl))).
  apply IH. intros y acc' Hy. apply Hbody. now right.
Qed.

Lemma generate_code_lines_run :
  run generate_code_lines w
  = (Returned (flat_map (fun zone => [advance_line; create_line (label_in_state w zone)])
                 (Py.range 18)), w).
Proof.
  unfold generate_code_lines.
  rewrite (for_in_pure _
    (fun zone acc => (acc ++ [advance_line; create_line (label_in_state w zone)])%list)).
  - now rewrite fold_left_extend.
  - intros zone acc Hzone.
    rewrite (bind_returned _ _ (label_in_state w zone) w).
    + unfold run. simpl. now rewrite <- app_assoc.
    + apply get_key_label_fits. apply in_range in Hzone.
      pose proof maxsize_below_bound. unfold Py.maxsize in *. lia.
Qed.

Lemma generate_keyboard_layout_code_run :
  run generate_keyboard_layout_code w
  = (Returned (Py.join Py.nl
                 (flat_map (fun zone => [advance_line; create_line (label_in_state w zone)])
                    (Py.range 18))), w).
Proof.
  unfold generate_keyboard_layout_code.
  now rewrite (bind_returned _ _ _ _ generate_code_lines_run).
Qed.

End Runs.

Lemma printed_app (xs ys : list string) : printed (xs ++ ys) = printed xs ++ printed ys.
Proof.
  induction xs as [|x xs IH]; simpl; [reflexivity|].
  now rewrite IH, !append_assoc.
Qed.

Lemma sum_of_ones {A : Type} (l : list A) (acc : Z) :
  fold_left Z.add (map (fun _ => 1) l) acc = acc + Z.of_nat (List.length l).
Proof.
  revert acc. induction l as [|x l IH]; intros acc; simpl List.length; simpl fold_left.
  - lia.
  - rewrite IH. lia.
Qed.

Lemma count_unused_range (d : Py.dict) : 0 <= count_unused d <= Py.len d.
Proof.
  unfold count_unused, Py.items, Py.len. rewrite sum_of_ones.
  pose proof (filter_length_le (fun kv => Py.contains "Unused" (snd kv)) d). lia.
Qed.

Lemma print_entry_fits (zone_key : Z * string) (w : World) :
  Z.abs (fst zone_key) < Py.int_str_bound ->
  run (print_entry zone_key tt) w
  = (Returned tt, mkWorld (g_ZONE_TO_KEY w) (stdout w ++ entry_line zone_key ++ Py.nl)).
Proof.
  intros H. unfold print_entry.
  rewrite (bind_returned w _ _ (Py.decimal (fst zone_key)) w).
  - unfold run, print, entry_line. now rewrite !append_assoc.
  - now rewrite format_run, str_fits.
Qed.

Lemma print_entry_too_long (zone_key : Z * string) (w : World) :
  Py.int_str_bound <= Z.abs (fst zone_key) ->
  run (print_entry zone_key tt) w = (Raised Py.ValueError, w).
Proof.
  intros H. unfold print_entry. apply bind_raised.
  now rewrite format_run, str_too_long.
Qed.

(** The loop of the report over entries whose keys [str] accepts. *)
Lemma for_in_entries (xs : list (Z * string)) (w : World) :
  Forall (fun zone_key => Z.abs (fst zone_key) < Py.int_str_bound) xs ->
  run (for_in xs print_entry tt) w
  = (Returned tt, mkWorld (g_ZONE_TO_KEY w) (stdout w ++ printed (map entry_line xs))).
Proof.
  revert w. induction xs as [|x xs IH]; intros w Hall.
  - destruct w as [d out]. unfold run. simpl. now rewrite append_empty_r.
  - inversion Hall as [|? ? Hx Hxs]; subst. cbn [for_in].
    rewrite (bind_returned w _ _ _ _ (print_entry_fits x w Hx)).
    rewrite IH by exact Hxs. cbn [g_ZONE_TO_KEY stdout map]. unfold printed.
    cbn [fold_right]. now rewrite !append_assoc.
Qed.

(** The same loop stops at the first entry whose key [str] refuses. *)
Lemma for_in_entries_raise (before after : list (Z * string)) (k : Z) (v : string) (w : World) :
  Forall (fun zone_key => Z.abs (fst zone_key) < Py.int_str_bound) before ->
  Py.int_str_bound <= Z.abs k ->
  run (for_in (before ++ (k, v) :: after)%list print_entry tt) w
  = (Raised Py.ValueError,
     mkWorld (g_ZONE_TO_KEY w) (stdout w ++ printed (map entry_line before))).
Proof.
  intros Hall Hk. revert w. induction before as [|x before IH]; intros w.
  - cbn [app for_in].
    rewrite (bind_raised w _ _ _ _ (print_entry_too_long (k, v) w Hk)).
    destruct w as [d out]. simpl. now rewrite append_empty_r.
  - inversion Hall as [|? ? Hx Hxs]; subst. cbn [app for_in].
    rewrite (bind_returned w _ _ _ _ (print_entry_fits x w Hx)).
    rewrite IH by exact Hxs. cbn [g_ZONE_TO_KEY stdout map]. unfold printed.
    cbn [fold_right]. now rewrite !append_assoc.
Qed.

Lemma main_run (w : World) :
  printable (g_ZONE_TO_KEY w) ->
  run main w
  = (Returned tt,
     mkWorld (g_ZONE_TO_KEY w) (stdout w ++ printed (report_lines (g_ZONE_TO_KEY w)))).
Proof.
  intros [Hkeys Hlen]. destruct w as [d out]. cbn [g_ZONE_TO_KEY stdout] in *.
  unfold main, report_lines.
  do 3 (erewrite bind_returned; [|reflexivity]).
  erewrite bind_returned; [|reflexivity]. cbn [g_ZONE_TO_KEY].
  erewrite bind_returned; [|apply for_in_entries; exact Hkeys].
  cbn [g_ZONE_TO_KEY stdout].
  erewrite bind_returned; [|reflexivity]. cbn [g_ZONE_TO_KEY].
  erewrite bind_returned;
    [|rewrite format_run, str_of_size; [reflexivity|unfold Py.len in *; lia]].
  erewrite bind_returned; [|reflexivity]. cbn [g_ZONE_TO_KEY].
  erewrite bind_returned; [|reflexivity]. cbn [g_ZONE_TO_KEY].
  erewrite bind_returned;
    [|rewrite format_run, str_of_size;
      [reflexivity|pose proof (count_unused_range d); lia]].
  unfold run, print. cbn [g_ZONE_TO_KEY stdout]. f_equal. f_equal.
  rewrite !printed_app. simpl. rewrite !append_assoc. simpl.
  rewrite !append_assoc. simpl. repeat f_equal.
Qed.

Lemma key_fits (zone_id : Z) :
  In zone_id (Py.keys ZONE_TO_KEY) -> Z.abs zone_id < Py.int_str_bound.
Proof.
  rewrite ZONE_TO_KEY_keys, in_range. intros H.
  pose proof maxsize_below_bound. unfold Py.maxsize in *. lia.
Qed.

Lemma module_table_keys_fit :
  Forall (fun zone_key => Z.abs (fst zone_key) < Py.int_str_bound) (Py.items ZONE_TO_KEY).
Proof.
  apply Forall_forall. intros [zone label] Hin. apply key_fits.
  change zone with (fst (zone, label)). now apply in_map.
Qed.

(** ** The lookup *)

(** C1: for every zone id that is a key of the Zone Table, [get_key_label]
    returns exactly the label stored for that key (and leaves the state as
    it was); in particular zone 70 gives "z" and zone 53 gives "ö", which
    is what the witness evaluates. *)
Theorem get_key_label_mapped (zone_id : Z) (label : string) :
  In (zone_id, label) (Py.items ZONE_TO_KEY) ->
  run (get_key_label zone_id) module_world = (Returned label, module_world).
Proof.
  intros Hin.
  assert (Hkey : In zone_id (Py.keys ZONE_TO_KEY)).
  { change zone_id with (fst (zone_id, label)). now apply in_map. }
  rewrite get_key_label_fits by (apply key_fits; exact Hkey).
  do 2 f_equal. apply get_present; [apply ZONE_TO_KEY_NoDup|exact Hin].
Qed.

Lemma get_key_label_mapped_witness :
  (In (70, "z") (Py.items ZONE_TO_KEY)
   /\ run (get_key_label 70) module_world = (Returned "z", module_world))
  /\ (In (53, "ö") (Py.items ZONE_TO_KEY)
      /\ run (get_key_label 53) module_world = (Returned "ö", module_world)).
Proof.
  assert (H70 : In (70, "z") (Py.items ZONE_TO_KEY)).
  { vm_compute. do 70 right. left. reflexivity. }
  assert (H53 : In (53, "ö") (Py.items ZONE_TO_KEY)).
  { vm_compute. do 53 right. left. reflexivity. }
  split; (split; [assumption|]).
  - exact (get_key_label_mapped 70 "z" H70).
  - exact (get_key_label_mapped 53 "ö" H53).
Defined.

Lemma huge_id_is_no_key : ~ In Py.int_str_bound (Py.keys ZONE_TO_KEY).
Proof.
  rewrite ZONE_TO_KEY_keys, in_range. intros [_ Hlt].
  pose proof maxsize_below_bound. unfold Py.maxsize in *. lia.
Qed.

Lemma huge_id_raises :
  run (get_key_label Py.int_str_bound) module_world = (Raised Py.ValueError, module_world).
Proof. apply get_key_label_too_long. lia. Qed.

(** C2, as the documentation states it, fails: the lookup is not total.
    The integer [10 ** 4300], which is [Py.int_str_bound], is no key of
    the table, and the call for it raises [ValueError] from the f-string
    of the default instead of returning a label. *)
Lemma get_key_label_raises_on_huge_id :
  ~ (forall zone_id,
        ~ In zone_id (Py.keys ZONE_TO_KEY) ->
        run (get_key_label zone_id) module_world
        = (Returned ("Zone " ++ Py.decimal zone_id), module_world)).
Proof.
  intros H.
  pose proof (f_equal fst (eq_trans (eq_sym huge_id_raises) (H _ huge_id_is_no_key))) as X.
  cbn [fst] in X.
  exact (match X in _ = o return match o with Raised _ => True | Returned _ => False end
         with eq_refl => I end).
Qed.

(** C2, amended: for every integer that is not a key of the Zone Table
    and has at most 4300 decimal digits (its magnitude is below
    [10 ** 4300]), negative ones included,
    [get_key_label] raises no error and returns the text "Zone " followed
    by the decimal representation of the integer. *)
Theorem get_key_label_unmapped (zone_id : Z) :
  ~ In zone_id (Py.keys ZONE_TO_KEY) ->
  Z.abs zone_id < Py.int_str_bound ->
  run (get_key_label zone_id) module_world
  = (Returned ("Zone " ++ Py.decimal zone_id), module_world).
Proof.
  intros Hout Hfits.
  rewrite get_key_label_fits by exact Hfits.
  do 2 f_equal. apply get_absent. exact Hout.
Qed.

Lemma get_key_label_unmapped_witness :
  ~ In 999 (Py.keys ZONE_TO_KEY)
  /\ Z.abs 999 < Py.int_str_bound
  /\ run (get_key_label 999) module_world = (Returned "Zone 999", module_world).
Proof.
  assert (H : ~ In 999 (Py.keys ZONE_TO_KEY)).
  { rewrite ZONE_TO_KEY_keys, in_range. lia. }
  assert (Hfits : Z.abs 999 < Py.int_str_bound).
  { reflexivity. }
  split; [exact H|]. split; [exact Hfits|].
  exact (get_key_label_unmapped 999 H Hfits).
Defined.

(** The other two unmapped ids the documentation names, by evaluation. *)
Example get_key_label_minus_one : returns (get_key_label (-1)) = Returned "Zone -1".
Proof. reflexivity. Qed.

Example get_key_label_126 : returns (get_key_label 126) = Returned "Zone 126".
Proof. reflexivity. Qed.

(** How the lookup ends, on every integer and in every state: with a
    label when [str] accepts the integer, with [ValueError] when it does
    not; the state is left as it was. *)
Lemma get_key_label_outcome (w : World) (zone_id : Z) :
  (Z.abs zone_id < Py.int_str_bound
   /\ run (get_key_label zone_id) w = (Returned (label_in_state w zone_id), w))
  \/ (Py.int_str_bound <= Z.abs zone_id
      /\ run (get_key_label zone_id) w = (Raised Py.ValueError, w)).
Proof.
  destruct (Z.lt_ge_cases (Z.abs zone_id) Py.int_str_bound) as [H|H].
  - left. split; [exact H|]. now apply get_key_label_fits.
  - right. split; [exact H|]. now apply get_key_label_too_long.
Qed.

(** ** The table *)

(** C5: the Zone Table has exactly 126 entries, its keys are pairwise
    distinct, and they are exactly the integers 0 to 125. The literal has
    126 items too, so none of them replaced another. *)
Theorem ZONE_TO_KEY_shape :
  Py.len ZONE_TO_KEY = 126
  /\ List.length ZONE_TO_KEY_items = 126%nat
  /\ NoDup (Py.keys ZONE_TO_KEY)
  /\ (forall z, In z (Py.keys ZONE_TO_KEY) <-> 0 <= z <= 125).
Proof.
  split; [reflexivity|]. split; [reflexivity|]. split.
  - apply ZONE_TO_KEY_NoDup.
  - intros z. rewrite ZONE_TO_KEY_keys, in_range. lia.
Qed.

(** C6: the number of entries whose label is exactly "Unused/Unknown" is
    the number the report computes by looking for the substring "Unused",
    entry by entry the two tests agree, and that number is what the last
    line of the report shows. *)
Theorem unused_count_is_sentinel_count :
  count_sentinel ZONE_TO_KEY = count_unused ZONE_TO_KEY
  /\ Forall (fun zone_key =>
               Py.contains "Unused" (snd zone_key)
               = String.eqb (snd zone_key) "Unused/Unknown")
       (Py.items ZONE_TO_KEY)
  /\ fst (run main module_world) = Returned tt
  /\ exists before,
       stdout (snd (run main module_world))
       = before ++ "Unused zones: " ++ Py.decimal (count_sentinel ZONE_TO_KEY) ++ Py.nl.
Proof.
  split; [reflexivity|]. split; [vm_compute; repeat constructor|].
  split; [vm_compute; reflexivity|].
  exists (printed (firstn 131 (report_lines ZONE_TO_KEY))).
  vm_compute. reflexivity.
Qed.

(** ** Purity *)

(** C8: from any state, two calls of [get_key_label] with the same zone id
    end alike, with the same string (or, for an integer too long for
    [str], with the same exception), two calls of the generator return
    the same string, and the state after them is the state before: the
    table is not changed (and nothing is printed). *)
Theorem calls_are_repeatable (w : World) :
  (forall zone_id, exists result,
      run (get_key_label zone_id) w = (result, w)
      /\ run (get_key_label zone_id) (snd (run (get_key_label zone_id) w)) = (result, w)
      /\ forall label,
           result = Returned label ->
           run (a <- get_key_label zone_id ;;
                b <- get_key_label zone_id ;;
                ret (a, b)) w
           = (Returned (label, label), w))
  /\ (exists code,
        run (a <- generate_keyboard_layout_code ;;
             b <- generate_keyboard_layout_code ;;
             ret (a, b)) w
        = (Returned (code, code), w)).
Proof.
  split.
  - intros zone_id.
    destruct (get_key_label_outcome w zone_id) as [[_ E]|[_ E]];
      eexists; rewrite E; cbn [snd]; rewrite E; (split; [reflexivity|]);
      (split; [reflexivity|]); intros label Hl; [|discriminate].
    injection Hl as <-.
    rewrite (bind_returned w _ _ _ _ E), (bind_returned w _ _ _ _ E). reflexivity.
  - eexists.
    rewrite (bind_returned w _ _ _ _ (generate_keyboard_layout_code_run w)).
    rewrite (bind_returned w _ _ _ _ (generate_keyboard_layout_code_run w)).
    reflexivity.
Qed.

(** ** The generator *)

(** C3, as the documentation states it, fails: the second line of the
    generated text does not contain the call with the number 0 as its
    first argument. *)
Lemma second_line_has_no_zone_number :
  ~ (exists line1 line2,
        nth_error generated_lines 0 = Some line1
        /\ nth_error generated_lines 1 = Some line2
        /\ Py.contains "zoneId = currentZone++;" line1 = true
        /\ Py.contains
             ("createKeyButton( 0, " ++ Py.dquote ++ "Left Ctrl" ++ Py.dquote ++ ", row, col );")
             line2 = true).
Proof.
  intros (line1 & line2 & _ & H2 & _ & Hcall).
  vm_compute in H2. injection H2 as <-.
  vm_compute in Hcall. discriminate.
Qed.

(** C3, amended: the first line of the generated text is the statement
    [zoneId = currentZone++;] and the second is the call
    [createKeyButton( zoneId, "Left Ctrl", row, col );], whose first
    argument is the identifier [zoneId] and whose second is the quoted
    label of zone 0; each is indented by two spaces. *)
Theorem first_two_generated_lines :
  nth_error generated_lines 0 = Some "  zoneId = currentZone++;"
  /\ nth_error generated_lines 1
     = Some ("  createKeyButton( zoneId, " ++ Py.dquote ++ "Left Ctrl" ++ Py.dquote
             ++ ", row, col );")
  /\ Py.contains "zoneId = currentZone++;" (nth 0 generated_lines "") = true
  /\ Py.contains
       ("createKeyButton( zoneId, " ++ Py.dquote ++ "Left Ctrl" ++ Py.dquote ++ ", row, col );")
       (nth 1 generated_lines "") = true
  /\ returns (get_key_label 0) = Returned "Left Ctrl".
Proof. repeat split; vm_compute; reflexivity. Qed.

(** C4: the generator returns a text that, split on newline, has exactly
    36 lines: for each zone of [range(18)] in ascending order the line
    [  zoneId = currentZone++;] and then the line
    [  createKeyButton( zoneId, "<label>", row, col );] with the label
    [get_key_label] returns for the zone (zone 7 "Space", zone 10
    "Right Alt"). The bound 18 does not depend on the table: in every
    state, whatever the table holds, the loop appends these 18 pairs, with
    the labels the lookup gives in that state. *)
Theorem generated_lines_shape :
  (exists code,
      returns generate_keyboard_layout_code = Returned code
      /\ Py.split "010" code = generated_lines)
  /\ (exists label : Z -> string,
         (forall zone, In zone (Py.range 18) ->
                       returns (get_key_label zone) = Returned (label zone))
         /\ label 7 = "Space"
         /\ label 10 = "Right Alt"
         /\ generated_lines
            = flat_map
                (fun zone =>
                   [ "  zoneId = currentZone++;";
                     "  createKeyButton( zoneId, " ++ Py.dquote ++ label zone ++ Py.dquote
                     ++ ", row, col );" ])
                (Py.range 18))
  /\ List.length generated_lines = 36%nat
  /\ nth_error generated_lines 15
     = Some ("  createKeyButton( zoneId, " ++ Py.dquote ++ "Space" ++ Py.dquote
             ++ ", row, col );")
  /\ nth_error generated_lines 21
     = Some ("  createKeyButton( zoneId, " ++ Py.dquote ++ "Right Alt" ++ Py.dquote
             ++ ", row, col );")
  /\ (forall w : World,
        run generate_code_lines w
        = (Returned
             (flat_map
                (fun zone =>
                   [ "  zoneId = currentZone++;";
                     "  createKeyButton( zoneId, " ++ Py.dquote
                     ++ Py.get (g_ZONE_TO_KEY w) zone ("Zone " ++ Py.decimal zone)
                     ++ Py.dquote ++ ", row, col );" ])
                (Py.range 18)), w)).
Proof.
  split.
  { eexists. split; vm_compute; reflexivity. }
  split.
  { exists (label_in_state module_world). split; [|split; [|split]].
    - intros zone Hzone. unfold returns.
      rewrite get_key_label_fits; [reflexivity|].
      apply in_range in Hzone. pose proof maxsize_below_bound.
      unfold Py.maxsize in *. lia.
    - vm_compute. reflexivity.
    - vm_compute. reflexivity.
    - vm_compute. reflexivity. }
  split; [vm_compute; reflexivity|].
  split; [vm_compute; reflexivity|].
  split; [vm_compute; reflexivity|].
  intros w. apply generate_code_lines_run.
Qed.

(** C9: in every pair of generated lines the first is the advance line
    and the second is the creation call whose first argument is the
    identifier [zoneId], never the decimal number of the zone; the pairs
    of two zones differ in the quoted label only. *)
Theorem creation_calls_use_zoneId_token (i : nat) :
  (i < 18)%nat ->
  nth_error generated_lines (2 * i) = Some "  zoneId = currentZone++;"
  /\ (exists label,
         returns (get_key_label (Z.of_nat i)) = Returned label
         /\ nth_error generated_lines (2 * i + 1)
            = Some ("  createKeyButton( zoneId, " ++ Py.dquote ++ label ++ Py.dquote
                    ++ ", row, col );"))
  /\ Py.contains ("createKeyButton( " ++ Py.decimal (Z.of_nat i) ++ ",")
       (nth (2 * i + 1) generated_lines "") = false.
Proof.
  intros Hi.
  do 18 (destruct i as [|i];
         [split; [vm_compute; reflexivity|];
          split; [eexists; split; vm_compute; reflexivity|vm_compute; reflexivity]|]).
  lia.
Qed.

Lemma creation_calls_use_zoneId_token_witness :
  (7 < 18)%nat
  /\ nth_error generated_lines (2 * 7) = Some "  zoneId = currentZone++;"
  /\ (exists label,
         returns (get_key_label (Z.of_nat 7)) = Returned label
         /\ nth_error generated_lines (2 * 7 + 1)
            = Some ("  createKeyButton( zoneId, " ++ Py.dquote ++ label ++ Py.dquote
                    ++ ", row, col );"))
  /\ Py.contains ("createKeyButton( " ++ Py.decimal (Z.of_nat 7) ++ ",")
       (nth (2 * 7 + 1) generated_lines "") = false.
Proof.
  assert (H : (7 < 18)%nat) by lia.
  split; [exact H|]. exact (creation_calls_use_zoneId_token 7 H).
Defined.



(** ** The report *)

(** C7: run directly, the module prints the title line, the note on the
    Y/Z swap, an empty line, one line ["  Zone " + zone_id + ": " + label]
    per entry of the Zone Table in the table's order, which is ascending
    by zone id, an empty line, the line with the number of entries and
    the line with the number of entries whose label contains "Unused";
    it ends without an exception and leaves the table as it was. *)
Theorem report_output :
  run main module_world
  = (Returned tt,
     mkWorld ZONE_TO_KEY
       (printed
          (List.app
             [ "Tuxedo Keyboard Zone Mappings (German QWERTZ Layout):";
               "Note: Y and Z positions are swapped compared to US QWERTY";
               "" ]
             (List.app
                (map (fun zone_key =>
                        "  Zone " ++ Py.decimal (fst zone_key) ++ ": " ++ snd zone_key)
                   (Py.items ZONE_TO_KEY))
                [ "";
                  "Total mapped zones: " ++ Py.decimal (Py.len ZONE_TO_KEY);
                  "Unused zones: " ++ Py.decimal (count_unused ZONE_TO_KEY) ]))))
  /\ Sorted.StronglySorted Z.lt (Py.keys ZONE_TO_KEY)
  /\ Py.decimal (Py.len ZONE_TO_KEY) = "126"
  /\ Py.decimal (count_unused ZONE_TO_KEY) = "24".
Proof.
  split; [vm_compute; reflexivity|].
  split; [|split; reflexivity].
  apply Sorted.Sorted_StronglySorted; [exact Z.lt_trans|].
  vm_compute. repeat constructor.
Qed.

(** * Further properties of the code *)

(** ** Texts *)

Lemma count_char_app c (a b : string) :
  count_char c (a ++ b) = (count_char c a + count_char c b)%nat.
Proof.
  induction a as [|x a IH]; simpl; [reflexivity|]. rewrite IH. lia.
Qed.

Lemma uint_digits_only c d :
  ~ In c (list_ascii_of_string "0123456789") ->
  count_char c (NilEmpty.string_of_uint d) = 0%nat.
Proof.
  intros Hc. induction d; cbn [count_char NilEmpty.string_of_uint]; try reflexivity;
    rewrite IHd;
    match goal with
    | |- ((if Ascii.eqb ?a c then _ else _) + _)%nat = _ =>
        destruct (Ascii.eqb_spec a c) as [<-|_]; [|reflexivity]
    end;
    exfalso; apply Hc; simpl; tauto.
Qed.

(** The decimal text only holds digits and the minus sign. *)
Lemma str_digits_only c z :
  ~ In c (list_ascii_of_string "-0123456789") -> count_char c (Py.decimal z) = 0%nat.
Proof.
  intros Hc.
  assert (Hd : ~ In c (list_ascii_of_string "0123456789")).
  { intros H. apply Hc. now right. }
  assert (Hu : forall d, count_char c (NilZero.string_of_uint d) = 0%nat).
  { intros d. destruct d; try apply (uint_digits_only c _ Hd).
    cbn [count_char NilZero.string_of_uint].
    destruct (Ascii.eqb_spec "0" c) as [<-|_]; [|reflexivity].
    exfalso. apply Hd. now left. }
  unfold Py.decimal. destruct (Z.to_int z) as [d|d];
    cbn [count_char NilZero.string_of_int]; [apply Hu|].
  rewrite Hu. destruct (Ascii.eqb_spec "-" c) as [<-|_]; [|reflexivity].
  exfalso. apply Hc. now left.
Qed.

Lemma to_int_proper z : Z.to_int z <> Decimal.Pos Decimal.Nil /\ Z.to_int z <> Decimal.Neg Decimal.Nil.
Proof.
  destruct z as [|p|p]; simpl; split; try discriminate;
    intros H; injection H as H; now apply (DecimalPos.Unsigned.to_uint_nonnil p).
Qed.

Lemma str_inj z1 z2 : Py.decimal z1 = Py.decimal z2 -> z1 = z2.
Proof.
  unfold Py.decimal. intros H. apply DecimalZ.to_int_inj.
  destruct (to_int_proper z1) as [Hp1 Hn1]. destruct (to_int_proper z2) as [Hp2 Hn2].
  pose proof (NilZero.isi _ Hp1 Hn1) as E1. pose proof (NilZero.isi _ Hp2 Hn2) as E2.
  rewrite H in E1. congruence.
Qed.

Lemma append_inj_l (a b c : string) : a ++ b = a ++ c -> b = c.
Proof. induction a as [|x a IH]; simpl; intros H; [exact H|]. injection H as H. now apply IH. Qed.

Lemma prefix_append (a b : string) : String.prefix a (a ++ b) = true.
Proof.
  induction a as [|x a IH]; simpl; [now destruct b|].
  destruct (ascii_dec x x) as [_|Hne]; [exact IH|now elim Hne].
Qed.

Lemma in_keys_entry (d : Py.dict) (k : Z) :
  In k (Py.keys d) -> exists v, In (k, v) (Py.items d).
Proof.
  unfold Py.keys, Py.items. rewrite in_map_iff. intros [[k' v] [Hk Hin]].
  simpl in Hk. subst k'. now exists v.
Qed.

Lemma label_of_run (w w' : World) (zone_id : Z) (label : string) :
  run (get_key_label zone_id) w = (Returned label, w') ->
  Z.abs zone_id < Py.int_str_bound
  /\ label = Py.get (g_ZONE_TO_KEY w) zone_id ("Zone " ++ Py.decimal zone_id)
  /\ w' = w.
Proof.
  destruct (get_key_label_outcome w zone_id) as [[Hfits E]|[_ E]];
    rewrite E; intros H; [|discriminate].
  injection H as <- <-. now split.
Qed.

Lemma label_of_returns (zone_id : Z) (label : string) :
  returns (get_key_label zone_id) = Returned label ->
  label = Py.get ZONE_TO_KEY zone_id ("Zone " ++ Py.decimal zone_id).
Proof.
  unfold returns. intros H.
  destruct (run (get_key_label zone_id) module_world) as [result w'] eqn:E.
  cbn [fst] in H. subst result. now apply label_of_run in E as (_ & -> & _).
Qed.

(** ** The lookup, on any table *)

(** X1: on any table with distinct keys, as a dict's are, the lookup
    first formats the integer for the default label and then looks it up.
    For an integer of at most 4300 digits it returns the stored label of a
    key and the synthesized label of an integer that is no key; for a
    longer one it raises [ValueError], also when the integer is a key. The
    state is left as it was in each case. *)
Theorem get_key_label_any_table (w : World) (zone_id : Z) :
  NoDup (Py.keys (g_ZONE_TO_KEY w)) ->
  (Z.abs zone_id < Py.int_str_bound ->
   (forall label,
       In (zone_id, label) (Py.items (g_ZONE_TO_KEY w)) ->
       run (get_key_label zone_id) w = (Returned label, w))
   /\ (~ In zone_id (Py.keys (g_ZONE_TO_KEY w)) ->
       run (get_key_label zone_id) w = (Returned ("Zone " ++ Py.decimal zone_id), w)))
  /\ (Py.int_str_bound <= Z.abs zone_id ->
      run (get_key_label zone_id) w = (Raised Py.ValueError, w)).
Proof.
  intros Hnd. split.
  - intros Hfits. rewrite get_key_label_fits by exact Hfits. split.
    + intros label Hin. do 2 f_equal. now apply get_present.
    + intros Hout. do 2 f_equal. now apply get_absent.
  - apply get_key_label_too_long.
Qed.

Lemma get_key_label_any_table_witness :
  NoDup (Py.keys (g_ZONE_TO_KEY (mkWorld [(3, "Tab"); (40, "Esc")] "out")))
  /\ (Z.abs 40 < Py.int_str_bound ->
      (forall label,
          In (40, label) (Py.items (g_ZONE_TO_KEY (mkWorld [(3, "Tab"); (40, "Esc")] "out"))) ->
          run (get_key_label 40) (mkWorld [(3, "Tab"); (40, "Esc")] "out")
          = (Returned label, mkWorld [(3, "Tab"); (40, "Esc")] "out"))
      /\ (~ In 40 (Py.keys (g_ZONE_TO_KEY (mkWorld [(3, "Tab"); (40, "Esc")] "out"))) ->
          run (get_key_label 40) (mkWorld [(3, "Tab"); (40, "Esc")] "out")
          = (Returned ("Zone " ++ Py.decimal 40), mkWorld [(3, "Tab"); (40, "Esc")] "out")))
  /\ (Py.int_str_bound <= Z.abs 40 ->
      run (get_key_label 40) (mkWorld [(3, "Tab"); (40, "Esc")] "out")
      = (Raised Py.ValueError, mkWorld [(3, "Tab"); (40, "Esc")] "out")).
Proof.
  assert (H : NoDup (Py.keys (g_ZONE_TO_KEY (mkWorld [(3, "Tab"); (40, "Esc")] "out")))).
  { simpl. repeat constructor; simpl; intuition discriminate. }
  split; [exact H|].
  exact (get_key_label_any_table (mkWorld [(3, "Tab"); (40, "Esc")] "out") 40 H).
Defined.

(** X2: the synthesized label identifies the zone: two integers that are
    no keys of the table and for which the lookup returns the same label
    are the same integer. *)
Theorem fallback_label_identifies_zone (w : World) (z1 z2 : Z) (label : string) :
  ~ In z1 (Py.keys (g_ZONE_TO_KEY w)) ->
  ~ In z2 (Py.keys (g_ZONE_TO_KEY w)) ->
  run (get_key_label z1) w = (Returned label, w) ->
  run (get_key_label z2) w = (Returned label, w) ->
  z1 = z2.
Proof.
  intros H1 H2 E1 E2.
  apply label_of_run in E1 as (_ & L1 & _). apply label_of_run in E2 as (_ & L2 & _).
  rewrite get_absent in L1, L2 by assumption.
  apply str_inj. apply (append_inj_l "Zone "). congruence.
Qed.

Lemma fallback_label_identifies_zone_witness :
  ~ In (-4) (Py.keys (g_ZONE_TO_KEY module_world))
  /\ run (get_key_label (-4)) module_world = (Returned "Zone -4", module_world)
  /\ -4 = -4.
Proof.
  assert (H : ~ In (-4) (Py.keys (g_ZONE_TO_KEY module_world))).
  { simpl g_ZONE_TO_KEY. rewrite ZONE_TO_KEY_keys, in_range. lia. }
  assert (E : run (get_key_label (-4)) module_world = (Returned "Zone -4", module_world)).
  { reflexivity. }
  split; [exact H|]. split; [exact E|].
  exact (fallback_label_identifies_zone module_world (-4) (-4) "Zone -4" H H E E).
Defined.

Lemma stored_labels_shape :
  Forall (fun zone_key =>
            String.prefix "Zone " (snd zone_key) = false /\ snd zone_key <> "")
    (Py.items ZONE_TO_KEY).
Proof. vm_compute. repeat constructor; discriminate. Qed.

(** X3: with the module's table, a label the lookup returns starts with
    "Zone " exactly when the integer is no key of the table: no stored
    label can be taken for a synthesized one. *)
Theorem zone_prefix_iff_unmapped (zone_id : Z) (label : string) :
  returns (get_key_label zone_id) = Returned label ->
  (String.prefix "Zone " label = true <-> ~ In zone_id (Py.keys ZONE_TO_KEY)).
Proof.
  intros H. apply label_of_returns in H. subst label.
  destruct (in_dec Z.eq_dec zone_id (Py.keys ZONE_TO_KEY)) as [Hin|Hout].
  - destruct (in_keys_entry _ _ Hin) as [label Hl].
    rewrite (get_present _ _ label) by (apply ZONE_TO_KEY_NoDup || exact Hl).
    pose proof (proj1 (Forall_forall _ _) stored_labels_shape _ Hl) as [Hp _].
    cbn [snd] in Hp. rewrite Hp. split; [discriminate|contradiction].
  - rewrite get_absent by exact Hout.
    split; [intros _; exact Hout|intros _; apply prefix_append].
Qed.

Lemma zone_prefix_iff_unmapped_witness :
  returns (get_key_label 999) = Returned "Zone 999"
  /\ (String.prefix "Zone " "Zone 999" = true <-> ~ In 999 (Py.keys ZONE_TO_KEY)).
Proof.
  assert (H : returns (get_key_label 999) = Returned "Zone 999") by reflexivity.
  split; [exact H|]. exact (zone_prefix_iff_unmapped 999 "Zone 999" H).
Defined.

(** X4: with the module's table, the lookup never returns the empty
    text, whatever the integer. *)
Theorem get_key_label_never_empty (zone_id : Z) :
  returns (get_key_label zone_id) <> Returned "".
Proof.
  intros H. apply label_of_returns in H. revert H.
  destruct (in_dec Z.eq_dec zone_id (Py.keys ZONE_TO_KEY)) as [Hin|Hout].
  - destruct (in_keys_entry _ _ Hin) as [label Hl].
    rewrite (get_present _ _ label) by (apply ZONE_TO_KEY_NoDup || exact Hl).
    intros <-. exact (proj2 (proj1 (Forall_forall _ _) stored_labels_shape _ Hl) eq_refl).
  - rewrite get_absent by exact Hout. discriminate.
Qed.

(** ** The generator, on any table *)

Lemma split_from_clean sep (s rest : string) (cur : list ascii) :
  count_char sep s = 0%nat ->
  Py.split_from sep cur (s ++ rest)
  = Py.split_from sep (rev (list_ascii_of_string s) ++ cur)%list rest.
Proof.
  revert cur. induction s as [|a s IH]; intros cur Hs; [reflexivity|].
  cbn [count_char] in Hs. cbn [append Py.split_from list_ascii_of_string rev].
  destruct (Ascii.eqb a sep); [discriminate|].
  rewrite IH by exact Hs. now rewrite <- app_assoc.
Qed.

(** Splitting undoes joining when no line holds the separator. *)
Lemma split_join sep (lines : list string) :
  lines <> [] ->
  Forall (fun line => count_char sep line = 0%nat) lines ->
  Py.split sep (Py.join (String sep EmptyString) lines) = lines.
Proof.
  unfold Py.split, Py.join.
  induction lines as [|x lines IH]; intros Hne Hall; [contradiction|].
  inversion Hall as [|? ? Hx Hrest]; subst. destruct lines as [|y lines].
  - cbn [concat]. rewrite <- (append_empty_r x) at 1.
    rewrite split_from_clean by exact Hx. cbn [Py.split_from].
    now rewrite app_nil_r, rev_involutive, string_of_list_ascii_of_string.
  - change (concat (String sep "") (x :: y :: lines))
      with (x ++ String sep (concat (String sep "") (y :: lines))).
    rewrite split_from_clean by exact Hx. cbn [Py.split_from].
    rewrite Ascii.eqb_refl, app_nil_r, rev_involutive, string_of_list_ascii_of_string.
    f_equal. apply IH; [discriminate|exact Hrest].
Qed.

Lemma create_line_count c (label : string) :
  count_char c (create_line label)
  = (count_char c (create_line "") + count_char c label)%nat.
Proof. unfold create_line. rewrite !count_char_app. simpl. lia. Qed.

(** No label the lookup gives holds a newline, if no stored one does. *)
Lemma label_without_newline (w : World) (zone : Z) :
  Forall (fun zone_key => count_char "010" (snd zone_key) = 0%nat)
    (Py.items (g_ZONE_TO_KEY w)) ->
  count_char "010" (label_in_state w zone) = 0%nat.
Proof.
  intros Hall. unfold label_in_state, Py.get.
  destruct (Py.lookup (g_ZONE_TO_KEY w) zone) as [label|] eqn:E.
  - apply lookup_sound in E. exact (proj1 (Forall_forall _ _) Hall _ E).
  - rewrite count_char_app, str_digits_only; [reflexivity|].
    simpl. intuition discriminate.
Qed.

Lemma code_lines_split_back (w : World) :
  Forall (fun zone_key => count_char "010" (snd zone_key) = 0%nat)
    (Py.items (g_ZONE_TO_KEY w)) ->
  Py.split "010"
    (Py.join Py.nl
       (flat_map (fun zone => [advance_line; create_line (label_in_state w zone)])
          (Py.range 18)))
  = flat_map (fun zone => [advance_line; create_line (label_in_state w zone)])
      (Py.range 18).
Proof.
  intros Hall. apply split_join.
  - discriminate.
  - apply Forall_flat_map, Forall_forall. intros zone _.
    constructor; [reflexivity|]. constructor; [|constructor].
    rewrite create_line_count. now rewrite label_without_newline.
Qed.

Lemma nth_error_pairs {A B : Type} (a : B) (f : A -> B) (l : list A) (i : nat) :
  nth_error (flat_map (fun x => [a; f x]) l) (2 * i + 1) = option_map f (nth_error l i).
Proof.
  revert i. induction l as [|x l IH]; intros [|i]; simpl; try reflexivity.
  replace (i + S (i + 0) + 1)%nat with (S (2 * i + 1)) by lia. apply IH.
Qed.

Lemma nth_error_range (n i : nat) :
  (i < n)%nat -> nth_error (Py.range n) i = Some (Z.of_nat i).
Proof.
  intros Hi. unfold Py.range. rewrite nth_error_map, nth_error_seq.
  destruct (Nat.ltb_spec i n); [reflexivity|lia].
Qed.

(** X5: for any table whose labels hold no newline, the generator
    returns a text whose split on newline gives back exactly the 36 lines
    the loop appended (no line is cut in two, none is merged). *)
Theorem generated_text_splits_back (w : World) :
  Forall (fun zone_key => count_char "010" (snd zone_key) = 0%nat)
    (Py.items (g_ZONE_TO_KEY w)) ->
  exists code code_lines,
    run generate_keyboard_layout_code w = (Returned code, w)
    /\ run generate_code_lines w = (Returned code_lines, w)
    /\ Py.split "010" code = code_lines
    /\ List.length code_lines = 36%nat.
Proof.
  intros Hall. do 2 eexists.
  split; [apply generate_keyboard_layout_code_run|].
  split; [apply generate_code_lines_run|].
  split; [now apply code_lines_split_back|reflexivity].
Qed.

Lemma generated_text_splits_back_witness :
  Forall (fun zone_key => count_char "010" (snd zone_key) = 0%nat)
    (Py.items (g_ZONE_TO_KEY module_world))
  /\ exists code code_lines,
       run generate_keyboard_layout_code module_world = (Returned code, module_world)
       /\ run generate_code_lines module_world = (Returned code_lines, module_world)
       /\ Py.split "010" code = code_lines
       /\ List.length code_lines = 36%nat.
Proof.
  assert (H : Forall (fun zone_key => count_char "010" (snd zone_key) = 0%nat)
                (Py.items (g_ZONE_TO_KEY module_world))).
  { vm_compute. repeat constructor. }
  split; [exact H|]. exact (generated_text_splits_back module_world H).
Defined.

(** X6: the generated text depends on the table only through the
    entries of zones 0 to 17: two states whose tables agree there, however
    they differ elsewhere (and whatever was printed), generate the same
    text. *)
Theorem generated_text_depends_on_first_18_zones (w1 w2 : World) :
  (forall zone, In zone (Py.range 18) ->
                Py.lookup (g_ZONE_TO_KEY w1) zone = Py.lookup (g_ZONE_TO_KEY w2) zone) ->
  exists code,
    run generate_keyboard_layout_code w1 = (Returned code, w1)
    /\ run generate_keyboard_layout_code w2 = (Returned code, w2).
Proof.
  intros Hagree. eexists.
  split; [apply generate_keyboard_layout_code_run|].
  rewrite generate_keyboard_layout_code_run. do 3 f_equal.
  rewrite !flat_map_concat_map. f_equal.
  apply map_ext_in. intros zone Hzone. unfold label_in_state, Py.get.
  now rewrite (Hagree zone Hzone).
Qed.

Lemma generated_text_depends_on_first_18_zones_witness :
  (forall zone, In zone (Py.range 18) ->
                Py.lookup (g_ZONE_TO_KEY module_world) zone
                = Py.lookup (g_ZONE_TO_KEY (mkWorld (firstn 18 ZONE_TO_KEY_items) "earlier")) zone)
  /\ exists code,
       run generate_keyboard_layout_code module_world = (Returned code, module_world)
       /\ run generate_keyboard_layout_code (mkWorld (firstn 18 ZONE_TO_KEY_items) "earlier")
          = (Returned code, mkWorld (firstn 18 ZONE_TO_KEY_items) "earlier").
Proof.
  assert (H : forall zone, In zone (Py.range 18) ->
                Py.lookup (g_ZONE_TO_KEY module_world) zone
                = Py.lookup (g_ZONE_TO_KEY (mkWorld (firstn 18 ZONE_TO_KEY_items) "earlier")) zone).
  { intros zone Hzone. unfold Py.range in Hzone. simpl in Hzone.
    repeat (destruct Hzone as [<-|Hzone]; [vm_compute; reflexivity|]).
    contradiction. }
  split; [exact H|].
  exact (generated_text_depends_on_first_18_zones module_world
           (mkWorld (firstn 18 ZONE_TO_KEY_items) "earlier") H).
Defined.

(** X7: when a zone of the generator's range is no key of the table (and
    no stored label holds a newline), the generator still returns its
    text, and the creation call generated for the zone, line 2i+2 of the
    text, embeds the synthesized label "Zone i": a table with gaps gives
    no error and no missing line. *)
Theorem generator_falls_back_on_missing_zone (w : World) (i : nat) :
  (i < 18)%nat ->
  ~ In (Z.of_nat i) (Py.keys (g_ZONE_TO_KEY w)) ->
  Forall (fun zone_key => count_char "010" (snd zone_key) = 0%nat)
    (Py.items (g_ZONE_TO_KEY w)) ->
  exists code,
    run generate_keyboard_layout_code w = (Returned code, w)
    /\ nth_error (Py.split "010" code) (2 * i + 1)
       = Some ("  createKeyButton( zoneId, " ++ Py.dquote ++ "Zone " ++ Py.decimal (Z.of_nat i)
               ++ Py.dquote ++ ", row, col );").
Proof.
  intros Hi Hout Hall. eexists.
  split; [apply generate_keyboard_layout_code_run|].
  rewrite code_lines_split_back by exact Hall.
  rewrite nth_error_pairs, nth_error_range by exact Hi. cbn [option_map].
  unfold label_in_state. rewrite get_absent by exact Hout. reflexivity.
Qed.

Lemma generator_falls_back_on_missing_zone_witness :
  (3 < 18)%nat
  /\ ~ In (Z.of_nat 3) (Py.keys (g_ZONE_TO_KEY (mkWorld [(0, "Left Ctrl")] "")))
  /\ Forall (fun zone_key => count_char "010" (snd zone_key) = 0%nat)
       (Py.items (g_ZONE_TO_KEY (mkWorld [(0, "Left Ctrl")] "")))
  /\ exists code,
       run generate_keyboard_layout_code (mkWorld [(0, "Left Ctrl")] "")
       = (Returned code, mkWorld [(0, "Left Ctrl")] "")
       /\ nth_error (Py.split "010" code) (2 * 3 + 1)
          = Some ("  createKeyButton( zoneId, " ++ Py.dquote ++ "Zone "
                  ++ Py.decimal (Z.of_nat 3) ++ Py.dquote ++ ", row, col );").
Proof.
  assert (H1 : (3 < 18)%nat) by lia.
  assert (H2 : ~ In (Z.of_nat 3) (Py.keys (g_ZONE_TO_KEY (mkWorld [(0, "Left Ctrl")] "")))).
  { simpl. intros [H|[]]. discriminate. }
  assert (H3 : Forall (fun zone_key => count_char "010" (snd zone_key) = 0%nat)
                 (Py.items (g_ZONE_TO_KEY (mkWorld [(0, "Left Ctrl")] "")))).
  { vm_compute. repeat constructor. }
  split; [exact H1|]. split; [exact H2|]. split; [exact H3|].
  exact (generator_falls_back_on_missing_zone (mkWorld [(0, "Left Ctrl")] "") 3 H1 H2 H3).
Defined.

(** ** The report, on any table *)

(** X8: for any table the number the report prints as "Unused zones" is
    the number of entries whose label contains "Unused"; it lies between 0
    and the number of entries, the "Total mapped zones" of the line before. *)
Theorem count_unused_bounds (d : Py.dict) :
  count_unused d
  = Z.of_nat (List.length (filter (fun zone_key => Py.contains "Unused" (snd zone_key)) d))
  /\ 0 <= count_unused d <= Py.len d.
Proof.
  unfold count_unused, Py.items, Py.len. rewrite sum_of_ones. split; [lia|].
  pose proof (filter_length_le (fun zone_key => Py.contains "Unused" (snd zone_key)) d).
  lia.
Qed.

(** X9: run in a state whose table has only keys of at most 4300 digits
    and no more entries than a container can hold, the report ends
    without an exception, leaves the table as it was and adds its lines
    after what was printed before: the two header lines, an empty line,
    one line per entry in the table's order, an empty line and the two
    counts. *)
Theorem report_on_any_table (w : World) :
  Forall (fun zone_key => Z.abs (fst zone_key) < Py.int_str_bound)
    (Py.items (g_ZONE_TO_KEY w)) ->
  Py.len (g_ZONE_TO_KEY w) <= Py.maxsize ->
  run main w
  = (Returned tt,
     mkWorld (g_ZONE_TO_KEY w)
       (stdout w
        ++ printed
             (List.app
                [ "Tuxedo Keyboard Zone Mappings (German QWERTZ Layout):";
                  "Note: Y and Z positions are swapped compared to US QWERTY";
                  "" ]
                (List.app
                   (map (fun zone_key =>
                           "  Zone " ++ Py.decimal (fst zone_key) ++ ": " ++ snd zone_key)
                      (Py.items (g_ZONE_TO_KEY w)))
                   [ "";
                     "Total mapped zones: " ++ Py.decimal (Py.len (g_ZONE_TO_KEY w));
                     "Unused zones: " ++ Py.decimal (count_unused (g_ZONE_TO_KEY w)) ])))).
Proof.
  intros Hkeys Hlen. apply main_run. now split.
Qed.

Lemma report_on_any_table_witness :
  Forall (fun zone_key => Z.abs (fst zone_key) < Py.int_str_bound)
    (Py.items (g_ZONE_TO_KEY (mkWorld [(7, "Space"); (-2, "Unused spare")] "earlier")))
  /\ Py.len (g_ZONE_TO_KEY (mkWorld [(7, "Space"); (-2, "Unused spare")] "earlier"))
     <= Py.maxsize
  /\ run main (mkWorld [(7, "Space"); (-2, "Unused spare")] "earlier")
     = (Returned tt,
        mkWorld [(7, "Space"); (-2, "Unused spare")]
          ("earlier"
           ++ printed
                [ "Tuxedo Keyboard Zone Mappings (German QWERTZ Layout):";
                  "Note: Y and Z positions are swapped compared to US QWERTY";
                  "";
                  "  Zone 7: Space";
                  "  Zone -2: Unused spare";
                  "";
                  "Total mapped zones: 2";
                  "Unused zones: 1" ])).
Proof.
  assert (H1 : Forall (fun zone_key => Z.abs (fst zone_key) < Py.int_str_bound)
                 (Py.items (g_ZONE_TO_KEY (mkWorld [(7, "Space"); (-2, "Unused spare")] "earlier")))).
  { repeat (constructor; [reflexivity|]). constructor. }
  assert (H2 : Py.len (g_ZONE_TO_KEY (mkWorld [(7, "Space"); (-2, "Unused spare")] "earlier"))
               <= Py.maxsize).
  { vm_compute. discriminate. }
  split; [exact H1|]. split; [exact H2|].
  exact (report_on_any_table (mkWorld [(7, "Space"); (-2, "Unused spare")] "earlier") H1 H2).
Defined.

(** X10: for a table with distinct keys that the report can print, the
    line the report writes for each key shows the label [get_key_label]
    returns for that key: the output of the report can be told from the
    keys and the lookup alone. *)
Theorem report_lines_show_lookup (w : World) :
  NoDup (Py.keys (g_ZONE_TO_KEY w)) ->
  Forall (fun zone_key => Z.abs (fst zone_key) < Py.int_str_bound)
    (Py.items (g_ZONE_TO_KEY w)) ->
  Py.len (g_ZONE_TO_KEY w) <= Py.maxsize ->
  exists label : Z -> string,
    (forall zone, In zone (Py.keys (g_ZONE_TO_KEY w)) ->
                  run (get_key_label zone) w = (Returned (label zone), w))
    /\ run main w
       = (Returned tt,
          mkWorld (g_ZONE_TO_KEY w)
            (stdout w
             ++ printed
                  (List.app
                     [ "Tuxedo Keyboard Zone Mappings (German QWERTZ Layout):";
                       "Note: Y and Z positions are swapped compared to US QWERTY";
                       "" ]
                     (List.app
                        (map (fun zone => "  Zone " ++ Py.decimal zone ++ ": " ++ label zone)
                           (Py.keys (g_ZONE_TO_KEY w)))
                        [ "";
                          "Total mapped zones: " ++ Py.decimal (Py.len (g_ZONE_TO_KEY w));
                          "Unused zones: "
                          ++ Py.decimal (count_unused (g_ZONE_TO_KEY w)) ])))).
Proof.
  intros Hnd Hkeys Hlen. exists (label_in_state w). split.
  - intros zone Hzone. apply get_key_label_fits.
    destruct (in_keys_entry _ _ Hzone) as [label Hl].
    exact (proj1 (Forall_forall _ _) Hkeys _ Hl).
  - assert (E : map entry_line (Py.items (g_ZONE_TO_KEY w))
                 = map (fun zone => "  Zone " ++ Py.decimal zone ++ ": " ++ label_in_state w zone)
                     (Py.keys (g_ZONE_TO_KEY w))).
    { unfold Py.keys, Py.items. rewrite map_map.
      apply map_ext_in. intros [zone label] Hin. unfold entry_line, label_in_state.
      cbn [fst snd]. now rewrite (get_present _ _ label). }
    rewrite main_run by now split. unfold report_lines. rewrite E. reflexivity.
Qed.

Lemma report_lines_show_lookup_witness :
  NoDup (Py.keys (g_ZONE_TO_KEY module_world))
  /\ Forall (fun zone_key => Z.abs (fst zone_key) < Py.int_str_bound)
       (Py.items (g_ZONE_TO_KEY module_world))
  /\ Py.len (g_ZONE_TO_KEY module_world) <= Py.maxsize
  /\ exists label : Z -> string,
       (forall zone, In zone (Py.keys (g_ZONE_TO_KEY module_world)) ->
                     run (get_key_label zone) module_world
                     = (Returned (label zone), module_world))
       /\ run main module_world
          = (Returned tt,
             mkWorld (g_ZONE_TO_KEY module_world)
               (stdout module_world
                ++ printed
                     (List.app
                        [ "Tuxedo Keyboard Zone Mappings (German QWERTZ Layout):";
                          "Note: Y and Z positions are swapped compared to US QWERTY";
                          "" ]
                        (List.app
                           (map (fun zone => "  Zone " ++ Py.decimal zone ++ ": " ++ label zone)
                              (Py.keys (g_ZONE_TO_KEY module_world)))
                           [ "";
                             "Total mapped zones: "
                             ++ Py.decimal (Py.len (g_ZONE_TO_KEY module_world));
                             "Unused zones: "
                             ++ Py.decimal (count_unused (g_ZONE_TO_KEY module_world)) ])))).
Proof.
  assert (H1 : NoDup (Py.keys (g_ZONE_TO_KEY module_world))).
  { exact ZONE_TO_KEY_NoDup. }
  assert (H2 : Forall (fun zone_key => Z.abs (fst zone_key) < Py.int_str_bound)
                 (Py.items (g_ZONE_TO_KEY module_world))).
  { exact module_table_keys_fit. }
  assert (H3 : Py.len (g_ZONE_TO_KEY module_world) <= Py.maxsize).
  { vm_compute. discriminate. }
  split; [exact H1|]. split; [exact H2|]. split; [exact H3|].
  exact (report_lines_show_lookup module_world H1 H2 H3).
Defined.

(** X15: when an entry of the table has a key of more than 4300 digits,
    the report stops there with [ValueError]: it has printed the header
    and the lines of the entries before that one, and prints neither the
    later entries nor the two counts. *)
Theorem report_stops_at_unprintable_key
    (w : World) (before after : list (Z * string)) (k : Z) (v : string) :
  Py.items (g_ZONE_TO_KEY w) = (before ++ (k, v) :: after)%list ->
  Forall (fun zone_key => Z.abs (fst zone_key) < Py.int_str_bound) before ->
  Py.int_str_bound <= Z.abs k ->
  run main w
  = (Raised Py.ValueError,
     mkWorld (g_ZONE_TO_KEY w)
       (stdout w
        ++ printed
             (List.app
                [ "Tuxedo Keyboard Zone Mappings (German QWERTZ Layout):";
                  "Note: Y and Z positions are swapped compared to US QWERTY";
                  "" ]
                (map (fun zone_key =>
                        "  Zone " ++ Py.decimal (fst zone_key) ++ ": " ++ snd zone_key)
                   before)))).
Proof.
  intros Hitems Hbefore Hk. destruct w as [d out]. cbn [g_ZONE_TO_KEY stdout] in *.
  unfold main.
  do 3 (erewrite bind_returned; [|reflexivity]).
  erewrite bind_returned; [|reflexivity]. cbn [g_ZONE_TO_KEY].
  erewrite bind_raised;
    [|rewrite Hitems; apply for_in_entries_raise; [exact Hbefore|exact Hk]].
  cbn [g_ZONE_TO_KEY stdout]. f_equal. f_equal.
  rewrite printed_app. simpl. rewrite ?append_assoc. simpl.
  rewrite ?append_assoc. simpl. repeat f_equal.
Qed.

Lemma report_stops_at_unprintable_key_witness :
  Py.items (g_ZONE_TO_KEY (mkWorld [(1, "a"); (Py.int_str_bound, "b"); (2, "c")] ""))
  = ([(1, "a")] ++ (Py.int_str_bound, "b") :: [(2, "c")])%list
  /\ Forall (fun zone_key => Z.abs (fst zone_key) < Py.int_str_bound) [(1, "a")]
  /\ Py.int_str_bound <= Z.abs Py.int_str_bound
  /\ run main (mkWorld [(1, "a"); (Py.int_str_bound, "b"); (2, "c")] "")
     = (Raised Py.ValueError,
        mkWorld [(1, "a"); (Py.int_str_bound, "b"); (2, "c")]
          (printed
             [ "Tuxedo Keyboard Zone Mappings (German QWERTZ Layout):";
               "Note: Y and Z positions are swapped compared to US QWERTY";
               "";
               "  Zone 1: a" ])).
Proof.
  assert (H1 : Py.items (g_ZONE_TO_KEY (mkWorld [(1, "a"); (Py.int_str_bound, "b"); (2, "c")] ""))
               = ([(1, "a")] ++ (Py.int_str_bound, "b") :: [(2, "c")])%list) by reflexivity.
  assert (H2 : Forall (fun zone_key => Z.abs (fst zone_key) < Py.int_str_bound) [(1, "a")]).
  { repeat (constructor; [reflexivity|]). constructor. }
  assert (H3 : Py.int_str_bound <= Z.abs Py.int_str_bound).
  { lia. }
  split; [exact H1|]. split; [exact H2|]. split; [exact H3|].
  exact (report_stops_at_unprintable_key
           (mkWorld [(1, "a"); (Py.int_str_bound, "b"); (2, "c")] "")
           [(1, "a")] [(2, "c")] Py.int_str_bound "b" H1 H2 H3).
Defined.

(** ** The table *)

Section LiteralFacts.

Implicit Types (d : Py.dict) (k : Z) (v : string).

Lemma setitem_fresh d k v :
  ~ In k (Py.keys d) -> Py.dict_setitem d k v = (d ++ [(k, v)])%list.
Proof.
  induction d as [|[k' v'] d IH]; simpl; intros Hk; [reflexivity|].
  destruct (Z.eqb_spec k' k) as [->|_]; [exfalso; apply Hk; now left|].
  rewrite IH; [reflexivity|]. intros Hin. apply Hk. now right.
Qed.

Lemma lookup_setitem d k v k0 :
  Py.lookup (Py.dict_setitem d k v) k0 = if k =? k0 then Some v else Py.lookup d k0.
Proof.
  induction d as [|[k' v'] d IH]; simpl; [reflexivity|].
  destruct (Z.eqb_spec k' k) as [->|Hne]; simpl.
  - now destruct (k =? k0).
  - rewrite IH. destruct (Z.eqb_spec k' k0) as [->|_]; [|reflexivity].
    destruct (Z.eqb_spec k k0) as [->|_]; [now elim Hne|reflexivity].
Qed.

Lemma lookup_app d1 d2 k :
  Py.lookup (d1 ++ d2)%list k
  = match Py.lookup d1 k with Some v => Some v | None => Py.lookup d2 k end.
Proof.
  induction d1 as [|[k' v'] d1 IH]; simpl; [reflexivity|].
  now destruct (k' =? k).
Qed.

End LiteralFacts.

Lemma display_onto_distinct (its acc : list (Z * string)) :
  NoDup (map fst (acc ++ its)%list) ->
  fold_left (fun d kv => Py.dict_setitem d (fst kv) (snd kv)) its acc = (acc ++ its)%list.
Proof.
  revert acc. induction its as [|[k v] its IH]; intros acc Hnd; simpl.
  - now rewrite app_nil_r.
  - assert (Hfresh : ~ In k (Py.keys acc)).
    { rewrite map_app in Hnd. simpl in Hnd.
      pose proof (NoDup_remove_2 _ _ _ Hnd) as H.
      intros Hin. apply H. apply in_or_app. now left. }
    rewrite setitem_fresh by exact Hfresh.
    replace (acc ++ (k, v) :: its)%list with ((acc ++ [(k, v)]) ++ its)%list
      by now rewrite <- app_assoc.
    apply IH. now rewrite <- app_assoc.
Qed.

(** X11: a dict display whose keys are pairwise distinct builds the table
    with exactly its items, in the order they are written. *)
Theorem dict_display_distinct_keys (its : list (Z * string)) :
  NoDup (map fst its) -> Py.dict_of_items its = its.
Proof.
  intros Hnd. unfold Py.dict_of_items.
  apply (display_onto_distinct its []). exact Hnd.
Qed.

Lemma dict_display_distinct_keys_witness :
  NoDup (map fst [(7, "Space"); (2, "Fn")])
  /\ Py.dict_of_items [(7, "Space"); (2, "Fn")] = [(7, "Space"); (2, "Fn")].
Proof.
  assert (H : NoDup (map fst [(7, "Space"); (2, "Fn")])).
  { simpl. repeat constructor; simpl; intuition discriminate. }
  split; [exact H|]. exact (dict_display_distinct_keys [(7, "Space"); (2, "Fn")] H).
Defined.

(** X12: in the table built from a dict display, a key has the label of
    the last item written for it: an item added to the literal for a zone
    that is already listed replaces the earlier label. *)
Theorem dict_display_last_item_wins (its : list (Z * string)) (k : Z) :
  Py.lookup (Py.dict_of_items its) k = Py.lookup (rev its) k.
Proof.
  unfold Py.dict_of_items.
  assert (H : forall acc,
             Py.lookup (fold_left (fun d kv => Py.dict_setitem d (fst kv) (snd kv)) its acc) k
             = match Py.lookup (rev its) k with
               | Some v => Some v
               | None => Py.lookup acc k
               end).
  { induction its as [|[k0 v0] its IH]; intros acc; simpl; [reflexivity|].
    rewrite IH, lookup_app, lookup_setitem. simpl.
    destruct (Py.lookup (rev its) k); [reflexivity|].
    now destruct (k0 =? k). }
  rewrite H. simpl. now destruct (Py.lookup (rev its) k).
Qed.

Lemma all_distinct_sound (l : list string) : all_distinct l = true -> NoDup l.
Proof.
  induction l as [|x l IH]; simpl; intros H; [constructor|].
  apply andb_prop in H as [Hx Hl]. constructor; [|now apply IH].
  intros Hin. apply negb_true_iff in Hx.
  assert (Hex : existsb (String.eqb x) l = true).
  { apply existsb_exists. exists x. split; [exact Hin|apply String.eqb_refl]. }
  congruence.
Qed.

Lemma NoDup_map_injective {A B : Type} (f : A -> B) (l : list A) (a b : A) :
  NoDup (map f l) -> In a l -> In b l -> f a = f b -> a = b.
Proof.
  induction l as [|x l IH]; simpl; intros Hnd Ha Hb Hf; [contradiction|].
  inversion Hnd as [|? ? Hx Hl]; subst.
  destruct Ha as [->|Ha], Hb as [->|Hb]; try reflexivity.
  - exfalso. apply Hx. rewrite Hf. now apply in_map.
  - exfalso. apply Hx. rewrite <- Hf. now apply in_map.
  - now apply IH.
Qed.

Lemma assigned_in (d : Py.dict) (zone : Z) (label : string) :
  In (zone, label) (Py.items d) -> label <> "Unused/Unknown" -> In (zone, label) (assigned d).
Proof.
  intros Hin Hl. unfold assigned. apply filter_In. split; [exact Hin|].
  simpl. apply negb_true_iff. now apply String.eqb_neq.
Qed.

(** X13: in the module's table every label other than "Unused/Unknown"
    belongs to one zone only: a key label determines its zone. *)
Theorem assigned_label_determines_zone (z1 z2 : Z) (label : string) :
  In (z1, label) (Py.items ZONE_TO_KEY) ->
  In (z2, label) (Py.items ZONE_TO_KEY) ->
  label <> "Unused/Unknown" ->
  z1 = z2.
Proof.
  intros H1 H2 Hl.
  assert (Hnd : NoDup (map snd (assigned ZONE_TO_KEY))).
  { apply all_distinct_sound. vm_compute. reflexivity. }
  pose proof (NoDup_map_injective snd _ (z1, label) (z2, label) Hnd
                (assigned_in _ _ _ H1 Hl) (assigned_in _ _ _ H2 Hl) eq_refl) as E.
  now injection E.
Qed.

Lemma assigned_label_determines_zone_witness :
  In (70, "z") (Py.items ZONE_TO_KEY)
  /\ "z" <> "Unused/Unknown"
  /\ 70 = 70.
Proof.
  assert (H : In (70, "z") (Py.items ZONE_TO_KEY)).
  { vm_compute. do 70 right. left. reflexivity. }
  assert (Hl : "z" <> "Unused/Unknown") by discriminate.
  split; [exact H|]. split; [exact Hl|].
  exact (assigned_label_determines_zone 70 70 "z" H H Hl).
Defined.

Lemma stored_labels_need_no_escape :
  Forall (fun zone_key =>
            count_char "034" (snd zone_key) = 0%nat
            /\ count_char "092" (snd zone_key) = 0%nat)
    (Py.items ZONE_TO_KEY).
Proof. vm_compute. repeat constructor. Qed.

(** X14: with the module's table, the creation call built for a label
    the lookup returns, for any integer, holds exactly two double quotes,
    those around the label, and no backslash: no label the lookup returns
    needs escaping in the generated source text. *)
Theorem creation_call_quotes_balanced (zone_id : Z) (label : string) :
  returns (get_key_label zone_id) = Returned label ->
  count_char "034" (create_line label) = 2%nat
  /\ count_char "092" (create_line label) = 0%nat.
Proof.
  intros H. apply label_of_returns in H. subst label.
  rewrite (create_line_count "034"), (create_line_count "092").
  destruct (in_dec Z.eq_dec zone_id (Py.keys ZONE_TO_KEY)) as [Hin|Hout].
  - destruct (in_keys_entry _ _ Hin) as [label Hl].
    rewrite (get_present _ _ label) by (apply ZONE_TO_KEY_NoDup || exact Hl).
    destruct (proj1 (Forall_forall _ _) stored_labels_need_no_escape _ Hl) as [Hq Hb].
    cbn [snd] in Hq, Hb. rewrite Hq, Hb. split; reflexivity.
  - rewrite get_absent by exact Hout. rewrite !count_char_app.
    rewrite !str_digits_only by (simpl; intuition discriminate).
    split; reflexivity.
Qed.

Lemma creation_call_quotes_balanced_witness :
  returns (get_key_label 0) = Returned "Left Ctrl"
  /\ count_char "034" (create_line "Left Ctrl") = 2%nat
  /\ count_char "092" (create_line "Left Ctrl") = 0%nat.
Proof.
  assert (H : returns (get_key_label 0) = Returned "Left Ctrl") by reflexivity.
  split; [exact H|]. exact (creation_call_quotes_balanced 0 "Left Ctrl" H).
Defined.
